(** * react-autocomplete: the combobox container, its option item and the
    active-descendant context, embedded from

    - src/Autocomplete.tsx              ([AutocompleteComponent])
    - src/ActiveDescendantContext.tsx   ([ActiveDescendantContext])
    - src/AutocompleteOption.tsx        ([AutocompleteOption])

    React state ([useState]) lives in an explicit [World]; event handlers are
    computations in a state-and-exception monad over it.  Every call that
    leaves the component (a tracker operation, [preventDefault], a host
    callback) is also written to a chronological log, so that 'is delegated
    to' and 'happens before' are statements about that log. *)

From Stdlib Require Import ZArith String List Bool.
From stdpp Require Import base option strings list gmap.
Import ListNotations.

(** ** JavaScript values and truthiness *)

Module Js.

(** Numbers as far as [||] can tell them apart: NaN, or a numeric value. *)
Inductive JsNumber := NaN | Num (z : Z).

Definition number_truthy (n : JsNumber) : bool :=
  match n with
  | NaN => false
  | Num z => negb (z =? 0)%Z
  end.

Definition string_truthy (s : string) : bool := negb (String.eqb s "").

(** [a || b] where [a : string | undefined] and [b : string]. *)
Definition or_string (a : option string) (b : string) : string :=
  match a with
  | Some s => if string_truthy s then s else b
  | None => b
  end.

(** [a && x] used as a render guard on an optional string. *)
Definition and_string {A} (a : option string) (x : A) : option A :=
  match a with
  | Some s => if string_truthy s then Some x else None
  | None => None
  end.

End Js.

(** [React.ReactNode]: what may be passed as [children]. *)
Inductive ReactNode :=
| RUndefined
| RNull
| RBool (b : bool)
| RNumber (n : Js.JsNumber)
| RString (s : string)
| RElement (descr : string)
| RArray (items : list string).

(** JavaScript truthiness of a node: objects (elements, arrays) are truthy. *)
Definition truthy (n : ReactNode) : bool :=
  match n with
  | RUndefined | RNull => false
  | RBool b => b
  | RNumber x => Js.number_truthy x
  | RString s => Js.string_truthy s
  | RElement _ | RArray _ => true
  end.

(** Modelled from the spec: the key names in [KeyCode], whose file
    [./constants] is missing from the sources.  The spec names the keys
    ArrowDown, ArrowUp, Escape and Enter; these are also the values a
    keyboard event reports in [e.key]. *)
Module KeyCode.
Definition DOWN : string := "ArrowDown".
Definition UP : string := "ArrowUp".
Definition ESC : string := "Escape".
Definition ENTER : string := "Enter".
End KeyCode.

(** The two fields of [React.KeyboardEvent] the component reads. *)
Record KeyboardEvent := { key : string; altKey : bool }.

(** [CssClassesTargets] *)
Record CssClassesTargets := {
  cls_container : option string;
  cls_input : option string;
  cls_listbox : option string;
  cls_label : option string;
  cls_portal : option string
}.

(** [classes?.slot] *)
Definition class_of (classes : option CssClassesTargets)
    (slot : CssClassesTargets -> option string) : option string :=
  match classes with
  | Some c => slot c
  | None => None
  end.

(** The message of the error thrown by the context's default value. *)
Definition no_provider_message : string :=
  "ActiveDescendantContext was initialized without a Provider! You likely rendered an AutocompleteOption without a parent Autocomplete.".

(** Operations of the tracker object returned by [useTrackActiveDescendant]. *)
Inductive TrackerOp :=
| TNext
| TPrev
| TClear
| TClick
| TUpdate (id : string).

Section Widget.

(** The option payload: opaque to the widget, apart from [toString]. *)
Context {V : Type}.
Variable toString : V -> string.

(** *** Observable effects and the world *)

Inductive Effect :=
| PreventDefault (e : KeyboardEvent)
| SetExpanded (b : bool)
| Tracker (op : TrackerOp)
| HostOnKeyDown (e : KeyboardEvent)
| HostOnFocus
| HostOnBlur
| HostOnOptionSelect (v : V).

(** [st_expanded] is the container's [useState(false)]; [activeId] is the
    tracker's state (its [current]); [log] grows at its end. *)
Record World := mkWorld {
  st_expanded : bool;
  activeId : option string;
  log : list Effect
}.

(** The state of a freshly mounted widget. *)
Definition initial : World :=
  {| st_expanded := false; activeId := None; log := [] |}.

Inductive Outcome (A : Type) :=
| Returned (a : A) (w : World)
| Threw (msg : string) (w : World).
Arguments Returned {A} a w.
Arguments Threw {A} msg w.

Definition M (A : Type) : Type := World -> Outcome A.

#[global] Instance M_ret : MRet M := fun A a w => Returned a w.

#[global] Instance M_bind : MBind M := fun A B f m w =>
  match m w with
  | Returned a w' => f a w'
  | Threw msg w' => Threw msg w'
  end.

Definition throw {A} (msg : string) : M A := fun w => Threw msg w.

Definition emit (e : Effect) : M unit := fun w =>
  Returned tt {| st_expanded := st_expanded w; activeId := activeId w;
                 log := log w ++ [e] |}.

Definition getExpanded : M bool := fun w => Returned (st_expanded w) w.

Definition getActiveId : M (option string) := fun w => Returned (activeId w) w.

(** The setter of [useState(false)]: the closure variable [expanded] of
    the running handler keeps its value, the stored state changes. *)
Definition setExpanded (b : bool) : M unit := fun w =>
  Returned tt {| st_expanded := b; activeId := activeId w;
                 log := log w ++ [SetExpanded b] |}.

Definition setActiveId (c : option string) : M unit := fun w =>
  Returned tt {| st_expanded := st_expanded w; activeId := c; log := log w |}.

(** [e.preventDefault()] *)
Definition preventDefault (e : KeyboardEvent) : M unit := emit (PreventDefault e).

(** [callback?.(args)]: the host's callback, when one was supplied.  What
    the host does inside is outside the widget; the call is logged. *)
Definition optional_call (supplied : bool) (call : Effect) : M unit :=
  if supplied then emit call else mret tt.

(** The world a computation ends in, and what it returned. *)
Definition world_of {A} (o : Outcome A) : World :=
  match o with
  | Returned _ w => w
  | Threw _ w => w
  end.

Definition result_of {A} (o : Outcome A) : option A :=
  match o with
  | Returned a _ => Some a
  | Threw _ _ => None
  end.

(** *** Rendered markup *)

(** The [<li>] an option renders to. *)
Record LiElement := {
  li_ariaSelected : bool;
  li_className : option string;
  li_id : string;
  li_role : string;
  li_onClick : M unit;
  li_onMouseDown : M unit;
  li_content : ReactNode
}.

(** The [<ul>] of the listbox. *)
Record UlElement := {
  ul_ariaLabelledby : string;
  ul_className : option string;
  ul_id : string;
  ul_role : string;
  ul_children : list LiElement
}.

Record LabelElement := {
  label_htmlFor : string;
  label_className : option string;
  label_text : string
}.

(** A value in the props object of the [<input>]. *)
Inductive PropVal :=
| PUndefined
| PStr (s : string)
| PBool (b : bool)
| PRef
| PHost (name : string)
| PFocusHandler (h : M unit)
| PKeyboardHandler (h : KeyboardEvent -> M unit).

Definition of_option_string (o : option string) : PropVal :=
  match o with
  | Some s => PStr s
  | None => PUndefined
  end.

(** The attribute React writes for a prop: none for a missing or
    [undefined] prop. *)
Definition attr (props : gmap string PropVal) (name : string) : option PropVal :=
  match props !! name with
  | Some PUndefined => None
  | other => other
  end.

(** [{...props, k1: v1, k2: v2, ...}]: keys written later win. *)
Definition set_props (props : gmap string PropVal)
    (kvs : list (string * PropVal)) : gmap string PropVal :=
  fold_left (fun m kv => <[kv.1 := kv.2]> m) kvs props.

(** *** The active-descendant tracker *)

(** The object [useTrackActiveDescendant] returns: what the container reads
    ([current], [check]) and calls ([next], [prev], [clear], [click],
    [update]). *)
Record ActiveDescendant := {
  current : option string;
  check : string -> bool;
  next : M unit;
  prev : M unit;
  clear : M unit;
  click : M unit;
  update : string -> M unit
}.

Fixpoint index_of (id : string) (ids : list string) : option nat :=
  match ids with
  | [] => None
  | x :: rest => if String.eqb x id then Some 0 else S <$> index_of id rest
  end.

(** Modelled from the spec: the navigation of the tracker, whose file
    [./useTrackActiveDescendant] is missing from the sources.  [next] moves
    to the option after the current one in document order, activates the
    first option when none is active (a stale id counts as none) and stays
    at the last option; on an empty list it does nothing. *)
Definition next_id (ids : list string) (cur : option string) : option string :=
  match ids with
  | [] => cur
  | first :: _ =>
      match cur ≫= (fun c => index_of c ids) with
      | None => Some first
      | Some i =>
          match ids !! S i with
          | Some n => Some n
          | None => cur
          end
      end
  end.

(** Modelled from the spec: [prev] of the missing tracker, the mirror image
    of [next]; it stays at the first option. *)
Definition prev_id (ids : list string) (cur : option string) : option string :=
  match ids with
  | [] => cur
  | _ :: _ =>
      match cur ≫= (fun c => index_of c ids) with
      | None => last ids
      | Some 0 => cur
      | Some (S j) => ids !! j
      end
  end.

(** Modelled from the spec: the object the missing hook
    [useTrackActiveDescendant] returns in a render where its state is [cur].  [element] is
    the listbox node the hook is given; its options are read from it.
    [clear] sets the active id to null, [update] force-sets it, [check id]
    tells whether [id] is the active id, and [click] triggers the click
    listener of the option with the active id, if there is one.  Each
    operation records its call in the log. *)
Definition tracker (element : option UlElement) (cur : option string)
    : ActiveDescendant :=
  let options := match element with
                 | Some ul => ul_children ul
                 | None => []
                 end in
  let ids := map li_id options in
  {|
    current := cur;
    check := fun id =>
      match cur with
      | Some c => String.eqb c id
      | None => false
      end;
    next := emit (Tracker TNext);; setActiveId (next_id ids cur);
    prev := emit (Tracker TPrev);; setActiveId (prev_id ids cur);
    clear := emit (Tracker TClear);; setActiveId None;
    click :=
      emit (Tracker TClick);;
      match cur with
      | None => mret tt
      | Some c =>
          match find (fun li => String.eqb (li_id li) c) options with
          | Some li => li_onClick li
          | None => mret tt
          end
      end;
    update := fun id => emit (Tracker (TUpdate id));; setActiveId (Some id)
  |}.

(** Modelled from the spec: the missing hook [useTrackActiveDescendant]
    reads its state and returns the tracker object of this render. *)
Definition useTrackActiveDescendant (element : option UlElement)
    : M ActiveDescendant :=
  cur ← getActiveId;
  mret (tracker element cur).

(** *** ActiveDescendantContext *)

(** [process.env.NODE_ENV], fixed at build time; it may be unset. *)
Variable NODE_ENV : option string.

Record ActiveDescendantContextType := {
  checkIfActive : string -> M bool;
  onOptionSelect : string -> V -> M unit
}.

(** [process.env.NODE_ENV !== 'production'] *)
Definition not_production : bool :=
  match NODE_ENV with
  | Some env => negb (String.eqb env "production")
  | None => true
  end.

(** The default value given to [createContext]. *)
Definition ActiveDescendantContext : ActiveDescendantContextType := {|
  checkIfActive := fun _id =>
    if not_production then throw no_provider_message else mret false;
  onOptionSelect := fun _id _value =>
    if not_production then throw no_provider_message else mret tt
|}.

(** [useContext(ActiveDescendantContext)]: the value of the nearest
    provider, the default value when there is none. *)
Definition useActiveDescendantContext
    (provider : option ActiveDescendantContextType)
    : ActiveDescendantContextType :=
  default ActiveDescendantContext provider.

(** *** AutocompleteOption *)

Record AutocompleteOptionProps := {
  opt_id : option string;
  opt_value : V;
  opt_children : ReactNode;
  opt_className : option string
}.

(** [autoId] is what [useId()] gave this option instance. *)
Definition AutocompleteOption
    (provider : option ActiveDescendantContextType)
    (props : AutocompleteOptionProps) (autoId : string) : M LiElement :=
  let htmlId := Js.or_string (opt_id props) autoId in
  let ctx := useActiveDescendantContext provider in
  selected ← checkIfActive ctx htmlId;
  let onClick := onOptionSelect ctx htmlId (opt_value props) in
  mret {|
    li_ariaSelected := selected;
    li_className := opt_className props;
    li_id := htmlId;
    li_role := "option";
    li_onClick := onClick;
    li_onMouseDown := onClick;
    li_content :=
      if truthy (opt_children props) then opt_children props
      else RString (toString (opt_value props))
  |}.

(** *** Autocomplete *)

(** A child of the container: an option's props together with the id that
    [useId()] gives the mounted instance. *)
Record OptionChild := {
  child_props : AutocompleteOptionProps;
  child_autoId : string
}.

(** [AutocompleteProps].  A callback prop is modelled by whether the host
    supplied it; every other prop the host passed is in [remainingProps]. *)
Record AutocompleteProps := {
  ac_id : option string;
  ac_children : list OptionChild;
  classes : option CssClassesTargets;
  label : option string;
  autoExpand : option bool;
  listboxPosition : option string;
  ac_value : option string;
  onBlur : bool;
  onFocus : bool;
  onKeyDown : bool;
  props_onOptionSelect : bool;
  remainingProps : gmap string PropVal
}.

(** The value handed to [ActiveDescendantContext.Provider].  The source
    memoises it on [domNode], [activeDescendant.check] and [onOptionSelect];
    it is the same function of the tracker object and the props in every
    render, so it is computed afresh here. *)
Definition activeDescendantState (props : AutocompleteProps)
    (activeDescendant : ActiveDescendant) : ActiveDescendantContextType := {|
  checkIfActive := fun id => mret (check activeDescendant id);
  onOptionSelect := fun id newValue =>
    update activeDescendant id;;
    optional_call (props_onOptionSelect props) (HostOnOptionSelect newValue)
|}.

(** [expanded] is the value of the state variable in the render that
    created the handler. *)
Definition trackActiveDescendant (expanded : bool)
    (activeDescendant : ActiveDescendant) (e : KeyboardEvent) : M unit :=
  if expanded then
    if String.eqb (key e) KeyCode.DOWN then
      preventDefault e;;
      next activeDescendant
    else if String.eqb (key e) KeyCode.UP then
      preventDefault e;;
      prev activeDescendant
    else if String.eqb (key e) KeyCode.ESC then
      setExpanded false;;
      clear activeDescendant
    else if String.eqb (key e) KeyCode.ENTER then
      click activeDescendant
    else mret tt
  else
    if String.eqb (key e) KeyCode.ENTER && altKey e then
      setExpanded true
    else mret tt.

Definition onKeyDownHandler (props : AutocompleteProps) (expanded : bool)
    (activeDescendant : ActiveDescendant) (e : KeyboardEvent) : M unit :=
  trackActiveDescendant expanded activeDescendant e;;
  optional_call (onKeyDown props) (HostOnKeyDown e).

(** [autoExpand = true] is the default of the destructured prop. *)
Definition onFocusHandler (props : AutocompleteProps) : M unit :=
  setExpanded (default true (autoExpand props));;
  optional_call (onFocus props) HostOnFocus.

Definition onBlurHandler (props : AutocompleteProps) : M unit :=
  setExpanded false;;
  optional_call (onBlur props) HostOnBlur.

(** What the component returns: the outer [<div>] with the optional label,
    the props object of the [<input>], and the portal [<div>] holding the
    listbox when there is one. *)
Record Rendered := {
  div_className : option string;
  div_label : option LabelElement;
  div_input : gmap string PropVal;
  portal_className : option string;
  portal_listbox : option UlElement
}.

(** [autoId] is the container's [useId()]; [domNode] is the state variable
    the listbox's ref callback writes. The options are rendered below the
    provider, so with [activeDescendantState] as their context. *)
Definition AutocompleteComponent (props : AutocompleteProps)
    (autoId : string) (domNode : option UlElement) : M Rendered :=
  let comboboxId := Js.or_string (ac_id props) autoId in
  let listboxId := comboboxId +:+ "-listbox" in
  expanded ← getExpanded;
  activeDescendant ← useTrackActiveDescendant domNode;
  let state := activeDescendantState props activeDescendant in
  listbox ←
    (if expanded then
       items ← mapM (fun c =>
                  AutocompleteOption (Some state) (child_props c) (child_autoId c))
                (ac_children props);
       mret (Some {|
         ul_ariaLabelledby := comboboxId;
         ul_className := class_of (classes props) cls_listbox;
         ul_id := listboxId;
         ul_role := "listbox";
         ul_children := items
       |})
     else mret None);
  mret {|
    div_className := class_of (classes props) cls_container;
    div_label :=
      Js.and_string (label props)
        {| label_htmlFor := comboboxId;
           label_className := class_of (classes props) cls_label;
           label_text := default "" (label props) |};
    div_input :=
      set_props (remainingProps props) [
        ("className", of_option_string (class_of (classes props) cls_input));
        ("aria-activedescendant", of_option_string (current activeDescendant));
        ("aria-autocomplete", PStr "list");
        ("aria-controls", PStr listboxId);
        ("aria-expanded", PBool expanded);
        ("autoComplete", PStr "off");
        ("id", PStr comboboxId);
        ("ref", PRef);
        ("role", PStr "combobox");
        ("value", of_option_string (ac_value props));
        ("onBlur", PFocusHandler (onBlurHandler props));
        ("onFocus", PFocusHandler (onFocusHandler props));
        ("onKeyDown",
           PKeyboardHandler (onKeyDownHandler props expanded activeDescendant))
      ];
    portal_className := class_of (classes props) cls_portal;
    portal_listbox := listbox
  |}.

(** *** Events on the mounted widget *)

(** The committed tree: the listbox node of the first pass reaches the
    component through the ref callback ([setDomNode]), which renders it
    again with that node as the tracker's element. *)
Definition mounted (props : AutocompleteProps) (autoId : string) : M Rendered :=
  first_pass ← AutocompleteComponent props autoId None;
  AutocompleteComponent props autoId (portal_listbox first_pass).

(** DOM events the widget listens to.  The option events name the option
    by its position in the listbox. *)
Inductive Event :=
| Focus
| Blur
| KeyDown (e : KeyboardEvent)
| MouseDown (i : nat)
| MouseUp (i : nat)
| Click (i : nat).

Definition fire_focus (handler : option PropVal) : M unit :=
  match handler with
  | Some (PFocusHandler h) => h
  | _ => mret tt
  end.

Definition fire_keyboard (handler : option PropVal) (e : KeyboardEvent) : M unit :=
  match handler with
  | Some (PKeyboardHandler h) => h e
  | _ => mret tt
  end.

Definition option_at (r : Rendered) (i : nat) : option LiElement :=
  ul ← portal_listbox r; ul_children ul !! i.

Definition fire_option (target : option LiElement)
    (listener : LiElement -> M unit) : M unit :=
  match target with
  | Some li => listener li
  | None => mret tt
  end.

(** An event reaches the listener the committed tree has for it; an option
    that is not in the tree receives nothing, and the [<li>] has no listener
    for mouse-up. *)
Definition dispatch (props : AutocompleteProps) (autoId : string)
    (ev : Event) : M unit :=
  r ← mounted props autoId;
  match ev with
  | Focus => fire_focus (div_input r !! "onFocus")
  | Blur => fire_focus (div_input r !! "onBlur")
  | KeyDown e => fire_keyboard (div_input r !! "onKeyDown") e
  | MouseDown i => fire_option (option_at r i) li_onMouseDown
  | MouseUp i => mret tt
  | Click i => fire_option (option_at r i) li_onClick
  end.

Definition step (props : AutocompleteProps) (autoId : string)
    (w : World) (ev : Event) : World :=
  world_of (dispatch props autoId ev w).

Definition run (props : AutocompleteProps) (autoId : string)
    (evs : list Event) (w : World) : World :=
  fold_left (step props autoId) evs w.

(** *** Vocabulary of the statements below *)

(** The id an option child renders with. *)
Definition htmlId_of (c : OptionChild) : string :=
  Js.or_string (opt_id (child_props c)) (child_autoId c).

(** The [<li>] of a child of the container. *)
Definition rendered_option (props : AutocompleteProps)
    (ad : ActiveDescendant) (c : OptionChild) : LiElement :=
  let select :=
    onOptionSelect (activeDescendantState props ad) (htmlId_of c)
      (opt_value (child_props c)) in
  {| li_ariaSelected := check ad (htmlId_of c);
     li_className := opt_className (child_props c);
     li_id := htmlId_of c;
     li_role := "option";
     li_onClick := select;
     li_onMouseDown := select;
     li_content :=
       if truthy (opt_children (child_props c)) then opt_children (child_props c)
       else RString (toString (opt_value (child_props c))) |}.

(** The id of the [<input>] and of the listbox. *)
Definition comboboxId_of (props : AutocompleteProps) (autoId : string) : string :=
  Js.or_string (ac_id props) autoId.

Definition listboxId_of (props : AutocompleteProps) (autoId : string) : string :=
  comboboxId_of props autoId +:+ "-listbox".

(** The listbox of a render in which the state variable is [expanded]. *)
Definition rendered_listbox (props : AutocompleteProps) (autoId : string)
    (expanded : bool) (ad : ActiveDescendant) : option UlElement :=
  if expanded then
    Some {| ul_ariaLabelledby := comboboxId_of props autoId;
            ul_className := class_of (classes props) cls_listbox;
            ul_id := listboxId_of props autoId;
            ul_role := "listbox";
            ul_children := map (rendered_option props ad) (ac_children props) |}
  else None.

(** The tracker object the handlers of the committed tree close over: its
    element is the listbox of the first pass. *)
Definition live_tracker (props : AutocompleteProps) (autoId : string)
    (w : World) : ActiveDescendant :=
  tracker
    (rendered_listbox props autoId (st_expanded w) (tracker None (activeId w)))
    (activeId w).

(** The option child an event on position [i] of the listbox reaches: none
    while the listbox is not rendered. *)
Definition target (props : AutocompleteProps) (w : World) (i : nat)
    : option OptionChild :=
  if st_expanded w then ac_children props !! i else None.

(** The calls of a host callback that may be missing. *)
Definition host_calls (supplied : bool) (call : Effect) : list Effect :=
  if supplied then [call] else [].

(** What reporting a selection of [c] to the container adds to the log. *)
Definition selection_calls (props : AutocompleteProps) (c : OptionChild)
    : list Effect :=
  Tracker (TUpdate (htmlId_of c))
  :: host_calls (props_onOptionSelect props)
       (HostOnOptionSelect (opt_value (child_props c))).

(** The first child that renders with the id [id]. *)
Definition child_with_id (children : list OptionChild) (id : string)
    : option OptionChild :=
  find (fun c => String.eqb (htmlId_of c) id) children.

(** What the click on the option with the active id [cur] adds to the log:
    the selection of that option, when the listbox has it. *)
Definition click_calls (props : AutocompleteProps) (cur : option string)
    : list Effect :=
  match cur ≫= child_with_id (ac_children props) with
  | Some c => selection_calls props c
  | None => []
  end.

(** The expand/collapse machine in the spec's words: focus sets the state
    to expanded exactly when auto-expand is enabled, blur collapses, Escape
    while expanded collapses, Alt+Enter while collapsed expands, and
    nothing else changes the state. *)
Definition spec_machine (auto : bool) (state : bool) (ev : Event) : bool :=
  match ev with
  | Focus => auto
  | Blur => false
  | KeyDown e =>
      if state then negb (String.eqb (key e) "Escape")
      else String.eqb (key e) "Enter" && altKey e
  | MouseDown _ | MouseUp _ | Click _ => state
  end.

(** *** Vocabulary for the rest of the component *)

(** The props the component writes on the [<input>] itself, in the order
    of the source. *)
Definition explicit_props : list string :=
  ["className"; "aria-activedescendant"; "aria-autocomplete"; "aria-controls";
   "aria-expanded"; "autoComplete"; "id"; "ref"; "role"; "value"; "onBlur";
   "onFocus"; "onKeyDown"].

(** Those props with the values of a render in which the state variable is
    [expanded] and the tracker object is [ad]. *)
Definition written_props (props : AutocompleteProps) (autoId : string)
    (expanded : bool) (ad : ActiveDescendant) : list (string * PropVal) :=
  [("className", of_option_string (class_of (classes props) cls_input));
   ("aria-activedescendant", of_option_string (current ad));
   ("aria-autocomplete", PStr "list");
   ("aria-controls", PStr (listboxId_of props autoId));
   ("aria-expanded", PBool expanded);
   ("autoComplete", PStr "off");
   ("id", PStr (comboboxId_of props autoId));
   ("ref", PRef);
   ("role", PStr "combobox");
   ("value", of_option_string (ac_value props));
   ("onBlur", PFocusHandler (onBlurHandler props));
   ("onFocus", PFocusHandler (onFocusHandler props));
   ("onKeyDown", PKeyboardHandler (onKeyDownHandler props expanded ad))].

(** What the key handler itself adds to the log for the key of [e] while
    the widget is expanded and [cur] is the active id. *)
Definition expanded_key_calls (props : AutocompleteProps)
    (cur : option string) (e : KeyboardEvent) : list Effect :=
  if String.eqb (key e) KeyCode.DOWN then [PreventDefault e; Tracker TNext]
  else if String.eqb (key e) KeyCode.UP then [PreventDefault e; Tracker TPrev]
  else if String.eqb (key e) KeyCode.ESC then [SetExpanded false; Tracker TClear]
  else if String.eqb (key e) KeyCode.ENTER then
    Tracker TClick :: click_calls props cur
  else [].

(** What an event adds to the log of a collapsed widget. *)
Definition collapsed_calls (props : AutocompleteProps) (ev : Event)
    : list Effect :=
  match ev with
  | Focus =>
      SetExpanded (default true (autoExpand props))
      :: host_calls (onFocus props) HostOnFocus
  | Blur => SetExpanded false :: host_calls (onBlur props) HostOnBlur
  | KeyDown e =>
      (if String.eqb (key e) KeyCode.ENTER && altKey e
       then [SetExpanded true] else [])
      ++ host_calls (onKeyDown props) (HostOnKeyDown e)
  | MouseDown _ | MouseUp _ | Click _ => []
  end.

(** Alt+Enter on the input. *)
Definition is_alt_enter (ev : Event) : bool :=
  match ev with
  | KeyDown e => String.eqb (key e) KeyCode.ENTER && altKey e
  | _ => false
  end.

(** Effects that leave the listbox closed and the tracker alone: a collapse
    and the host's focus, blur and key callbacks. *)
Definition quiet (eff : Effect) : bool :=
  match eff with
  | SetExpanded b => negb b
  | HostOnKeyDown _ | HostOnFocus | HostOnBlur => true
  | PreventDefault _ | Tracker _ | HostOnOptionSelect _ => false
  end.

(** A call of the tracker or of the host's selection callback. *)
Definition touches_selection (eff : Effect) : bool :=
  match eff with
  | Tracker _ | HostOnOptionSelect _ => true
  | _ => false
  end.

End Widget.

Arguments Returned {V A} a w.
Arguments Threw {V A} msg w.

(** ** Sample inputs *)

Module Sample.

(** Payloads are integers; [toString] prints the ones used below. *)
Definition toString (z : Z) : string :=
  match z with
  | 1%Z => "1"
  | 2%Z => "2"
  | 3%Z => "3"
  | _ => "?"
  end.

Definition option_child (id : string) (v : Z) : @OptionChild Z := {|
  child_props := {| opt_id := Some id; opt_value := v;
                    opt_children := RUndefined; opt_className := None |};
  child_autoId := ":r1:"
|}.

(** Three options [a], [b], [c] with values 1, 2, 3; every host callback
    supplied; no other prop. *)
Definition props : @AutocompleteProps Z := {|
  ac_id := None;
  ac_children := [option_child "a" 1; option_child "b" 2; option_child "c" 3];
  classes := None;
  label := None;
  autoExpand := None;
  listboxPosition := None;
  ac_value := None;
  onBlur := true;
  onFocus := true;
  onKeyDown := true;
  props_onOptionSelect := true;
  remainingProps := ∅
|}.

(** The widget expanded, with option [a] active. *)
Definition expanded_on_a : @World Z :=
  {| st_expanded := true; activeId := Some "a"; log := [] |}.

Definition keydown (k : string) : Event :=
  KeyDown {| key := k; altKey := false |}.

End Sample.

(** A widget whose host disabled auto-expand and supplied every callback. *)
Module Manual.

Definition props : @AutocompleteProps Z := {|
  ac_id := Some "city";
  ac_children := ac_children Sample.props;
  classes := None;
  label := Some "City";
  autoExpand := Some false;
  listboxPosition := None;
  ac_value := None;
  onBlur := true;
  onFocus := true;
  onKeyDown := true;
  props_onOptionSelect := true;
  remainingProps := {["placeholder" := PStr "Search"]}
|}.

End Manual.

(** ** Facts *)

Section Facts.

Context {V : Type}.
Variable toString : V -> string.
Variable NODE_ENV : option string.

Implicit Types (w : @World V) (props : @AutocompleteProps V).
Implicit Types (c : @OptionChild V) (cs : list (@OptionChild V)).
Implicit Types (ad : @ActiveDescendant V).

(** *** The monad *)

Lemma bind_returned {A B} (m : M A) (f : A -> M B) w a w' :
  m w = Returned a w' -> (m ≫= f) w = f a w'.
Proof. intros H. unfold mbind, M_bind. now rewrite H. Qed.

Lemma mapM_cons {A B} (f : A -> @M V B) (x : A) (l : list A) :
  mapM f (x :: l) = f x ≫= (fun y => mapM f l ≫= (fun k => mret (y :: k))).
Proof. reflexivity. Qed.

(** *** The props object *)

Lemma set_props_snoc (m : gmap string (@PropVal V)) kvs kv :
  set_props m (kvs ++ [kv]) = <[kv.1 := kv.2]> (set_props m kvs).
Proof. unfold set_props. now rewrite fold_left_app. Qed.

(** A key of the props object holds what was written to it last, and what
    the spread props had for it when it was never written. *)
Lemma lookup_set_props (m : gmap string (@PropVal V)) kvs k :
  set_props m kvs !! k =
  match find (fun kv => String.eqb kv.1 k) (rev kvs) with
  | Some kv => Some kv.2
  | None => m !! k
  end.
Proof.
  induction kvs as [|kv kvs IH] using rev_ind; [reflexivity|].
  rewrite set_props_snoc, rev_app_distr. cbn [rev app find].
  destruct (String.eqb_spec kv.1 k) as [->|Hne].
  - apply lookup_insert_eq.
  - now rewrite lookup_insert_ne.
Qed.

(** *** Rendering below the container's provider *)

Lemma option_below_provider props ad c w :
  AutocompleteOption toString NODE_ENV (Some (activeDescendantState props ad))
    (child_props c) (child_autoId c) w
  = Returned (rendered_option toString props ad c) w.
Proof. reflexivity. Qed.

Lemma options_below_provider props ad cs w :
  mapM (fun c =>
          AutocompleteOption toString NODE_ENV
            (Some (activeDescendantState props ad))
            (child_props c) (child_autoId c)) cs w
  = Returned (map (rendered_option toString props ad) cs) w.
Proof.
  induction cs as [|c cs IH]; [reflexivity|].
  cbn [map]. rewrite mapM_cons.
  erewrite bind_returned; [|apply option_below_provider].
  erewrite bind_returned; [reflexivity|apply IH].
Qed.

(** The component always renders; its listbox and the props of its input
    are the following. *)
Lemma component_returns props autoId dom w :
  exists r,
    AutocompleteComponent toString NODE_ENV props autoId dom w = Returned r w
    /\ portal_listbox r
       = rendered_listbox toString props autoId (st_expanded w)
           (tracker dom (activeId w))
    /\ div_input r !! "onKeyDown"
       = Some (PKeyboardHandler
                 (onKeyDownHandler props (st_expanded w) (tracker dom (activeId w))))
    /\ div_input r !! "onFocus" = Some (PFocusHandler (onFocusHandler props))
    /\ div_input r !! "onBlur" = Some (PFocusHandler (onBlurHandler props))
    /\ div_input r !! "role" = Some (PStr "combobox")
    /\ div_input r !! "aria-autocomplete" = Some (PStr "list")
    /\ div_input r !! "aria-expanded" = Some (PBool (st_expanded w))
    /\ div_input r !! "aria-controls" = Some (PStr (listboxId_of props autoId))
    /\ div_input r !! "aria-activedescendant"
       = Some (of_option_string (activeId w)).
Proof.
  unfold AutocompleteComponent.
  erewrite bind_returned; [|reflexivity].
  erewrite bind_returned; [|reflexivity].
  destruct (st_expanded w) eqn:E.
  - erewrite bind_returned;
      [|erewrite bind_returned; [reflexivity|apply options_below_provider]].
    eexists; split; [reflexivity|].
    cbn [div_input portal_listbox]. rewrite !lookup_set_props.
    repeat split.
  - erewrite bind_returned; [|reflexivity].
    eexists; split; [reflexivity|].
    cbn [div_input portal_listbox]. rewrite !lookup_set_props.
    repeat split.
Qed.

Lemma mounted_returns props autoId w :
  exists r,
    mounted toString NODE_ENV props autoId w = Returned r w
    /\ portal_listbox r
       = rendered_listbox toString props autoId (st_expanded w)
           (live_tracker toString props autoId w)
    /\ div_input r !! "onKeyDown"
       = Some (PKeyboardHandler
                 (onKeyDownHandler props (st_expanded w)
                    (live_tracker toString props autoId w)))
    /\ div_input r !! "onFocus" = Some (PFocusHandler (onFocusHandler props))
    /\ div_input r !! "onBlur" = Some (PFocusHandler (onBlurHandler props)).
Proof.
  destruct (component_returns props autoId None w) as (r0 & Hr0 & Hul0 & _).
  unfold mounted. erewrite bind_returned; [|exact Hr0].
  destruct (component_returns props autoId (portal_listbox r0) w)
    as (r & Hr & Hul & Hkey & Hfocus & Hblur & _).
  exists r. rewrite Hul0 in Hul, Hkey. now repeat split.
Qed.

(** *** What each event runs *)

Lemma dispatch_focus props autoId w :
  dispatch toString NODE_ENV props autoId Focus w = onFocusHandler props w.
Proof.
  destruct (mounted_returns props autoId w) as (r & Hr & _ & _ & Hfocus & _).
  unfold dispatch. erewrite bind_returned; [|exact Hr]. now rewrite Hfocus.
Qed.

Lemma dispatch_blur props autoId w :
  dispatch toString NODE_ENV props autoId Blur w = onBlurHandler props w.
Proof.
  destruct (mounted_returns props autoId w) as (r & Hr & _ & _ & _ & Hblur).
  unfold dispatch. erewrite bind_returned; [|exact Hr]. now rewrite Hblur.
Qed.

Lemma dispatch_keydown props autoId e w :
  dispatch toString NODE_ENV props autoId (KeyDown e) w
  = onKeyDownHandler props (st_expanded w)
      (live_tracker toString props autoId w) e w.
Proof.
  destruct (mounted_returns props autoId w) as (r & Hr & _ & Hkey & _).
  unfold dispatch. erewrite bind_returned; [|exact Hr]. now rewrite Hkey.
Qed.

Lemma dispatch_mouseup props autoId i w :
  dispatch toString NODE_ENV props autoId (MouseUp i) w = Returned tt w.
Proof.
  destruct (mounted_returns props autoId w) as (r & Hr & _).
  unfold dispatch. now erewrite bind_returned; [|exact Hr].
Qed.

(** The option the committed tree has at position [i]. *)
Lemma option_at_mounted props autoId w r i :
  portal_listbox r
  = rendered_listbox toString props autoId (st_expanded w)
      (live_tracker toString props autoId w) ->
  option_at r i
  = rendered_option toString props (live_tracker toString props autoId w)
      <$> target props w i.
Proof.
  intros Hul. unfold option_at, target. rewrite Hul. unfold rendered_listbox.
  destruct (st_expanded w); [|reflexivity].
  cbn. apply list_lookup_fmap.
Qed.

Lemma dispatch_mousedown props autoId i w :
  dispatch toString NODE_ENV props autoId (MouseDown i) w
  = match target props w i with
    | Some c =>
        onOptionSelect
          (activeDescendantState props (live_tracker toString props autoId w))
          (htmlId_of c) (opt_value (child_props c)) w
    | None => Returned tt w
    end.
Proof.
  destruct (mounted_returns props autoId w) as (r & Hr & Hul & _).
  unfold dispatch. erewrite bind_returned; [|exact Hr].
  rewrite (option_at_mounted props autoId w r i Hul).
  now destruct (target props w i).
Qed.

Lemma dispatch_click props autoId i w :
  dispatch toString NODE_ENV props autoId (Click i) w
  = match target props w i with
    | Some c =>
        onOptionSelect
          (activeDescendantState props (live_tracker toString props autoId w))
          (htmlId_of c) (opt_value (child_props c)) w
    | None => Returned tt w
    end.
Proof.
  destruct (mounted_returns props autoId w) as (r & Hr & Hul & _).
  unfold dispatch. erewrite bind_returned; [|exact Hr].
  rewrite (option_at_mounted props autoId w r i Hul).
  now destruct (target props w i).
Qed.

(** *** What the tracker and the selection entry point do to the world *)

Lemma optional_call_world (supplied : bool) (call : Effect) w :
  optional_call supplied call w
  = Returned tt {| st_expanded := st_expanded w; activeId := activeId w;
                   log := log w ++ host_calls supplied call |}.
Proof.
  destruct w as [x c l], supplied; cbn; [reflexivity|].
  now rewrite app_nil_r.
Qed.

Lemma select_world props el cur id (v : V) w :
  onOptionSelect (activeDescendantState props (tracker el cur)) id v w
  = Returned tt
      {| st_expanded := st_expanded w; activeId := Some id;
         log := log w ++ Tracker (TUpdate id)
                :: host_calls (props_onOptionSelect props) (HostOnOptionSelect v) |}.
Proof.
  cbn [onOptionSelect activeDescendantState update tracker].
  erewrite bind_returned; [|reflexivity].
  rewrite optional_call_world. cbn. now rewrite <- app_assoc.
Qed.

Lemma find_rendered props ad cs id :
  find (fun li : @LiElement V => String.eqb (li_id li) id)
    (map (rendered_option toString props ad) cs)
  = rendered_option toString props ad <$> child_with_id cs id.
Proof.
  unfold child_with_id.
  induction cs as [|c cs IH]; [reflexivity|].
  cbn [map find li_id rendered_option].
  now destruct (String.eqb (htmlId_of c) id).
Qed.

Lemma child_with_id_eq cs id c :
  child_with_id cs id = Some c -> htmlId_of c = id.
Proof.
  intros H. apply find_some in H as [_ H]. now apply String.eqb_eq.
Qed.

(** [click()] on the expanded widget: the call, then the selection of the
    active option; the state is left as it was. *)
Lemma click_world props autoId cur l :
  let w := {| st_expanded := true; activeId := cur; log := l |} in
  click (live_tracker toString props autoId w) w
  = Returned tt
      {| st_expanded := true; activeId := cur;
         log := l ++ Tracker TClick :: click_calls props cur |}.
Proof.
  intros w. unfold live_tracker, rendered_listbox, click_calls.
  cbn [st_expanded activeId w tracker click ul_children].
  erewrite bind_returned; [|reflexivity].
  destruct cur as [id|]; [|reflexivity].
  rewrite find_rendered. cbn [mbind option_bind].
  destruct (child_with_id (ac_children props) id) as [c|] eqn:Hc; [|reflexivity].
  cbn [fmap option_fmap option_map li_onClick rendered_option].
  rewrite select_world. cbn.
  rewrite (child_with_id_eq _ _ _ Hc). unfold selection_calls.
  rewrite (child_with_id_eq _ _ _ Hc). now rewrite <- app_assoc.
Qed.

(** *** The expand state across a keystroke *)

(** The key handler always returns, and leaves the expand state where the
    machine of the spec puts it. *)
Lemma track_returns props autoId e w :
  exists w',
    trackActiveDescendant (st_expanded w)
      (live_tracker toString props autoId w) e w = Returned tt w'
    /\ st_expanded w' = spec_machine true (st_expanded w) (KeyDown e).
Proof.
  destruct w as [x cur l], e as [k a]. cbn [st_expanded spec_machine key altKey].
  unfold trackActiveDescendant. cbn [key altKey].
  destruct x.
  - destruct (String.eqb_spec k KeyCode.DOWN) as [->|Hdown];
      [eexists; split; reflexivity|].
    destruct (String.eqb_spec k KeyCode.UP) as [->|Hup];
      [eexists; split; reflexivity|].
    destruct (String.eqb_spec k KeyCode.ESC) as [->|Hesc];
      [eexists; split; reflexivity|].
    change KeyCode.ESC with "Escape" in Hesc.
    destruct (String.eqb_spec k "Escape") as [|_]; [contradiction|].
    destruct (String.eqb_spec k KeyCode.ENTER) as [->|Henter].
    + rewrite (click_world props autoId cur l). eexists; split; reflexivity.
    + eexists; split; reflexivity.
  - change KeyCode.ENTER with "Enter".
    destruct (String.eqb k "Enter" && a); eexists; split; reflexivity.
Qed.

(** *** The world after a pointer event or a blur *)

Lemma step_option_event props autoId w i (ev : Event) :
  ev = MouseDown i \/ ev = Click i ->
  step toString NODE_ENV props autoId w ev
  = match target props w i with
    | Some c =>
        {| st_expanded := st_expanded w; activeId := Some (htmlId_of c);
           log := log w ++ selection_calls props c |}
    | None => w
    end.
Proof.
  unfold step.
  intros [-> | ->]; [rewrite dispatch_mousedown|rewrite dispatch_click].
  all: destruct (target props w i); [|reflexivity].
  all: unfold live_tracker; now rewrite select_world.
Qed.

Lemma step_mouseup props autoId w i :
  step toString NODE_ENV props autoId w (MouseUp i) = w.
Proof. unfold step. now rewrite dispatch_mouseup. Qed.

Lemma step_blur props autoId w :
  step toString NODE_ENV props autoId w Blur
  = {| st_expanded := false; activeId := activeId w;
       log := log w ++ SetExpanded false
              :: host_calls (onBlur props) HostOnBlur |}.
Proof.
  unfold step. rewrite dispatch_blur. unfold onBlurHandler.
  erewrite bind_returned; [|reflexivity].
  rewrite optional_call_world. cbn. now rewrite <- app_assoc.
Qed.

(** *** The container's state machine *)

(** C5: the widget starts collapsed, and every event moves the expand state
    as the machine of the spec does: focus sets it to the auto-expand flag
    (enabled by default), blur collapses, Escape while expanded collapses,
    Alt+Enter while collapsed expands, and no other event changes it. *)
Theorem expand_collapse_machine :
  st_expanded (@initial V) = false
  /\ forall props autoId w ev,
       st_expanded (step toString NODE_ENV props autoId w ev)
       = spec_machine (default true (autoExpand props)) (st_expanded w) ev.
Proof.
  split; [reflexivity|].
  intros props autoId w ev. unfold step.
  destruct ev as [| |e|i|i|i]; cbn [spec_machine].
  - rewrite dispatch_focus. unfold onFocusHandler.
    erewrite bind_returned; [|reflexivity].
    now rewrite optional_call_world.
  - rewrite dispatch_blur. unfold onBlurHandler.
    erewrite bind_returned; [|reflexivity].
    now rewrite optional_call_world.
  - rewrite dispatch_keydown. unfold onKeyDownHandler.
    destruct (track_returns props autoId e w) as (w' & Hw' & Hx).
    erewrite bind_returned; [|exact Hw'].
    rewrite optional_call_world. exact Hx.
  - rewrite dispatch_mousedown.
    destruct (target props w i); [|reflexivity].
    unfold live_tracker. now rewrite select_world.
  - now rewrite dispatch_mouseup.
  - rewrite dispatch_click.
    destruct (target props w i); [|reflexivity].
    unfold live_tracker. now rewrite select_world.
Qed.

(** C4: while expanded, ArrowDown and ArrowUp call [preventDefault] and
    then the tracker's [next] and [prev], and the widget stays expanded;
    while collapsed the key handler does nothing for them, so that only the
    host's own [onKeyDown] sees the keystroke. *)
Theorem arrow_keys_navigate_while_expanded :
  forall props autoId (ad : @ActiveDescendant V) (alt : bool) cur l,
    let down := {| key := KeyCode.DOWN; altKey := alt |} in
    let up := {| key := KeyCode.UP; altKey := alt |} in
    let open := {| st_expanded := true; activeId := cur; log := l |} in
    let closed := {| st_expanded := false; activeId := cur; log := l |} in
    trackActiveDescendant true ad down = (preventDefault down;; next ad)
    /\ trackActiveDescendant true ad up = (preventDefault up;; prev ad)
    /\ trackActiveDescendant false ad down = mret tt
    /\ trackActiveDescendant false ad up = mret tt
    /\ st_expanded (step toString NODE_ENV props autoId open (KeyDown down)) = true
    /\ log (step toString NODE_ENV props autoId open (KeyDown down))
       = l ++ [PreventDefault down; Tracker TNext]
           ++ host_calls (onKeyDown props) (HostOnKeyDown down)
    /\ st_expanded (step toString NODE_ENV props autoId open (KeyDown up)) = true
    /\ log (step toString NODE_ENV props autoId open (KeyDown up))
       = l ++ [PreventDefault up; Tracker TPrev]
           ++ host_calls (onKeyDown props) (HostOnKeyDown up)
    /\ step toString NODE_ENV props autoId closed (KeyDown down)
       = {| st_expanded := false; activeId := cur;
            log := l ++ host_calls (onKeyDown props) (HostOnKeyDown down) |}
    /\ step toString NODE_ENV props autoId closed (KeyDown up)
       = {| st_expanded := false; activeId := cur;
            log := l ++ host_calls (onKeyDown props) (HostOnKeyDown up) |}.
Proof.
  intros props autoId ad alt cur l down up open closed.
  do 4 (split; [reflexivity|]).
  unfold step. rewrite !dispatch_keydown. unfold onKeyDownHandler.
  repeat split.
  all: erewrite bind_returned; [|reflexivity].
  all: rewrite optional_call_world; cbn; rewrite <- ?app_assoc; reflexivity.
Qed.

(** C7: Enter while expanded is the tracker's [click()] and nothing else.
    On the mounted widget the keystroke leaves the expand state and the
    active id as they were; the log gains the call of [click()], what the
    click on the active option reports, and the host's [onKeyDown]. *)
Theorem enter_clicks_and_stays_expanded :
  forall props autoId (ad : @ActiveDescendant V) (alt : bool) cur l,
    let enter := {| key := KeyCode.ENTER; altKey := alt |} in
    let open := {| st_expanded := true; activeId := cur; log := l |} in
    trackActiveDescendant true ad enter = click ad
    /\ step toString NODE_ENV props autoId open (KeyDown enter)
       = {| st_expanded := true; activeId := cur;
            log := l ++ Tracker TClick :: click_calls props cur
                     ++ host_calls (onKeyDown props) (HostOnKeyDown enter) |}.
Proof.
  intros props autoId ad alt cur l enter open.
  split; [reflexivity|].
  unfold step. rewrite dispatch_keydown. unfold onKeyDownHandler.
  erewrite bind_returned; [|apply (click_world props autoId cur l)].
  rewrite optional_call_world. cbn. now rewrite <- app_assoc.
Qed.

(** C8: the selection entry point the container provides calls
    [update(id)] on the tracker and then the host's [onOptionSelect], when
    there is one, with the value it was given; afterwards [id] is the
    active id and the expand state is as before. *)
Theorem selection_updates_tracker_and_notifies_host :
  forall props (ad : @ActiveDescendant V) el cur (id : string) (v : V) w,
    onOptionSelect (activeDescendantState props ad) id v
    = (update ad id;;
       optional_call (props_onOptionSelect props) (HostOnOptionSelect v))
    /\ onOptionSelect (activeDescendantState props (tracker el cur)) id v w
       = Returned tt
           {| st_expanded := st_expanded w; activeId := Some id;
              log := log w ++ Tracker (TUpdate id)
                     :: host_calls (props_onOptionSelect props)
                          (HostOnOptionSelect v) |}
    /\ check (tracker el (Some id)) id = true.
Proof.
  intros props ad el cur id v w.
  split; [reflexivity|]. split; [apply select_world|].
  cbn. apply String.eqb_refl.
Qed.

(** *** Collapsing and the active id *)

(** C1, as the code has it: Escape while expanded collapses the listbox and
    calls the tracker's [clear()], after which no id is active.  Blur
    collapses the listbox.  A selection calls [update(id)], which makes
    [id] the active id, and leaves the expand state alone. *)
Theorem collapse_and_the_active_id :
  forall props autoId el (alt : bool) cur l (id : string) (v : V) w,
    let esc := {| key := KeyCode.ESC; altKey := alt |} in
    let open := {| st_expanded := true; activeId := cur; log := l |} in
    step toString NODE_ENV props autoId open (KeyDown esc)
    = {| st_expanded := false; activeId := None;
         log := l ++ [SetExpanded false; Tracker TClear]
                  ++ host_calls (onKeyDown props) (HostOnKeyDown esc) |}
    /\ st_expanded (step toString NODE_ENV props autoId w Blur) = false
    /\ world_of
         (onOptionSelect (activeDescendantState props (tracker el cur)) id v w)
       = {| st_expanded := st_expanded w; activeId := Some id;
            log := log w ++ Tracker (TUpdate id)
                   :: host_calls (props_onOptionSelect props)
                        (HostOnOptionSelect v) |}.
Proof.
  intros props autoId el alt cur l id v w esc open.
  split; [|split].
  - unfold step. rewrite dispatch_keydown. unfold onKeyDownHandler.
    erewrite bind_returned; [|reflexivity].
    rewrite optional_call_world. cbn. now rewrite <- !app_assoc.
  - now rewrite step_blur.
  - now rewrite select_world.
Qed.

(** *** The context without a provider *)

(** C2: an option outside any container gets the context's default value.
    Unless [NODE_ENV] is 'production', [checkIfActive] and [onOptionSelect]
    throw for every argument, and so does rendering the option.  In a
    production build [checkIfActive] returns false and [onOptionSelect]
    returns without touching anything; the option then renders unselected,
    with listeners that do nothing. *)
Theorem default_context_throws_or_degrades :
  forall (env : option string) (id : string) (v : V)
         (o : @AutocompleteOptionProps V) (autoId : string) (w : @World V),
    (env <> Some "production" ->
       checkIfActive (ActiveDescendantContext env) id w
       = Threw no_provider_message w
       /\ onOptionSelect (ActiveDescendantContext env) id v w
          = Threw no_provider_message w
       /\ AutocompleteOption toString env None o autoId w
          = Threw no_provider_message w)
    /\ checkIfActive (ActiveDescendantContext (Some "production")) id w
       = Returned false w
    /\ onOptionSelect (ActiveDescendantContext (Some "production")) id v w
       = Returned tt w
    /\ exists li,
         AutocompleteOption toString (Some "production") None o autoId w
         = Returned li w
         /\ li_ariaSelected li = false
         /\ li_onMouseDown li = (fun w' => Returned tt w')
         /\ li_onClick li = (fun w' => Returned tt w').
Proof.
  intros env id v o autoId w. split.
  - intros Henv.
    assert (not_production env = true) as Hnp.
    { destruct env as [e|]; [|reflexivity]. cbn.
      destruct (String.eqb_spec e "production") as [->|]; [|reflexivity].
      now contradiction Henv. }
    unfold AutocompleteOption, useActiveDescendantContext, mbind, M_bind.
    cbn [default from_option checkIfActive onOptionSelect ActiveDescendantContext].
    rewrite Hnp. repeat split.
  - do 2 (split; [reflexivity|]). eexists. repeat split.
Qed.

(** *** The markup *)

(** C3: whatever the props and the state, the component renders; its input
    has role combobox, aria-autocomplete list, aria-expanded equal to the
    expand state, aria-controls equal to the listbox id, and
    aria-activedescendant equal to the tracker's current id, absent when
    there is none.  The listbox is in the tree exactly when the widget is
    expanded, has that id and role listbox, and holds one [<li>] per
    child, each with role option and aria-selected equal to the tracker's
    [check] of its id. *)
Theorem aria_markup :
  forall props autoId dom w,
  exists r,
    AutocompleteComponent toString NODE_ENV props autoId dom w = Returned r w
    /\ attr (div_input r) "role" = Some (PStr "combobox")
    /\ attr (div_input r) "aria-autocomplete" = Some (PStr "list")
    /\ attr (div_input r) "aria-expanded" = Some (PBool (st_expanded w))
    /\ attr (div_input r) "aria-controls"
       = Some (PStr (listboxId_of props autoId))
    /\ attr (div_input r) "aria-activedescendant"
       = PStr <$> current (tracker dom (activeId w))
    /\ ul_id <$> portal_listbox r
       = (if st_expanded w then Some (listboxId_of props autoId) else None)
    /\ ul_role <$> portal_listbox r
       = (if st_expanded w then Some "listbox" else None)
    /\ map li_id (from_option ul_children [] (portal_listbox r))
       = (if st_expanded w then map htmlId_of (ac_children props) else [])
    /\ Forall (fun li =>
                 li_role li = "option"
                 /\ li_ariaSelected li
                    = check (tracker dom (activeId w)) (li_id li))
         (from_option ul_children [] (portal_listbox r)).
Proof.
  intros props autoId dom w.
  destruct (component_returns props autoId dom w)
    as (r & Hr & Hul & _ & _ & _ & Hrole & Hauto & Hexp & Hctl & Hact).
  exists r. unfold attr.
  rewrite Hrole, Hauto, Hexp, Hctl, Hact, Hul.
  split; [exact Hr|]. do 4 (split; [reflexivity|]).
  split; [now destruct (activeId w)|].
  unfold rendered_listbox.
  destruct (st_expanded w); cbn; [|now repeat split].
  do 2 (split; [reflexivity|]). split.
  - rewrite map_map. reflexivity.
  - apply Forall_map, Forall_forall. now intros c _.
Qed.

(** *** The option item *)

(** C6: a pointer-down on a mounted option runs the container's selection
    entry point with the option's own id and value; a pointer-up runs
    nothing.  When the blur follows the pointer-down, the selection is in
    the log before the collapse; pointer events that come after the blur
    find no option and select nothing. *)
Theorem pointer_down_selects_before_blur :
  forall props autoId i c cur l,
    ac_children props !! i = Some c ->
    let open := {| st_expanded := true; activeId := cur; log := l |} in
    dispatch toString NODE_ENV props autoId (MouseDown i) open
    = onOptionSelect
        (activeDescendantState props (live_tracker toString props autoId open))
        (htmlId_of c) (opt_value (child_props c)) open
    /\ step toString NODE_ENV props autoId open (MouseDown i)
       = {| st_expanded := true; activeId := Some (htmlId_of c);
            log := l ++ selection_calls props c |}
    /\ step toString NODE_ENV props autoId open (MouseUp i) = open
    /\ run toString NODE_ENV props autoId [MouseDown i; Blur] open
       = {| st_expanded := false; activeId := Some (htmlId_of c);
            log := l ++ selection_calls props c
                     ++ SetExpanded false
                        :: host_calls (onBlur props) HostOnBlur |}
    /\ run toString NODE_ENV props autoId [Blur; MouseUp i; Click i] open
       = step toString NODE_ENV props autoId open Blur.
Proof.
  intros props autoId i c cur l Hc open. subst open.
  split; [rewrite dispatch_mousedown; cbn [target st_expanded]; now rewrite Hc|].
  split.
  { rewrite (step_option_event _ _ _ i (MouseDown i)) by now left.
    cbn [target st_expanded]. now rewrite Hc. }
  split; [apply step_mouseup|].
  split.
  - cbn [run fold_left].
    rewrite (step_option_event _ _ _ i (MouseDown i)) by now left.
    cbn [target st_expanded]. rewrite Hc.
    rewrite step_blur. cbn. now rewrite <- app_assoc.
  - cbn [run fold_left]. rewrite step_mouseup.
    rewrite (step_option_event _ _ _ i (Click i)) by now right.
    now rewrite step_blur.
Qed.

(** C10: the [<li>] has one and the same listener for mouse-down and for
    click, so a mouse-down and a click that both reach a mounted option
    report its selection twice, with the same id and value. *)
Theorem mouse_down_and_click_select_twice :
  forall props autoId i c cur l,
    ac_children props !! i = Some c ->
    let open := {| st_expanded := true; activeId := cur; log := l |} in
    (forall provider o optId w,
       li_onClick
         <$> result_of (AutocompleteOption toString NODE_ENV provider o optId w)
       = li_onMouseDown
         <$> result_of (AutocompleteOption toString NODE_ENV provider o optId w))
    /\ run toString NODE_ENV props autoId [MouseDown i; Click i] open
       = {| st_expanded := true; activeId := Some (htmlId_of c);
            log := l ++ selection_calls props c ++ selection_calls props c |}
    /\ run toString NODE_ENV props autoId [MouseDown i; MouseUp i; Click i] open
       = {| st_expanded := true; activeId := Some (htmlId_of c);
            log := l ++ selection_calls props c ++ selection_calls props c |}.
Proof.
  intros props autoId i c cur l Hc open. subst open.
  split.
  { intros provider o optId w. unfold AutocompleteOption, mbind, M_bind.
    now destruct (checkIfActive _ _ w). }
  split; cbn [run fold_left].
  all: rewrite (step_option_event _ _ _ i (MouseDown i)) by now left.
  all: cbn [target st_expanded]; rewrite Hc.
  all: rewrite ?step_mouseup.
  all: rewrite (step_option_event _ _ _ i (Click i)) by now right.
  all: cbn [target st_expanded]; rewrite Hc; cbn; now rewrite <- app_assoc.
Qed.

(** C9, as the code has it: below a container an option always renders.
    A supplied id that is not the empty string is the id it renders with;
    without an id, or with the empty string, it renders with the generated
    one.  The content is the explicit content whenever that is truthy; it
    is the value's [toString()] when no content is given, and also when
    the content given is null, false or the empty string. *)
Theorem option_id_and_content :
  forall props ad (o : @AutocompleteOptionProps V) (autoId : string) w,
    let rendered :=
      result_of
        (AutocompleteOption toString NODE_ENV
           (Some (activeDescendantState props ad)) o autoId w) in
    is_Some rendered
    /\ (forall s, opt_id o = Some s -> s <> "" -> li_id <$> rendered = Some s)
    /\ (opt_id o = None \/ opt_id o = Some "" ->
        li_id <$> rendered = Some autoId)
    /\ (truthy (opt_children o) = true ->
        li_content <$> rendered = Some (opt_children o))
    /\ (opt_children o = RUndefined \/ opt_children o = RNull
        \/ opt_children o = RBool false \/ opt_children o = RString "" ->
        li_content <$> rendered = Some (RString (toString (opt_value o)))).
Proof.
  intros props ad o autoId w rendered. subst rendered. cbn.
  split; [eauto|]. split; [|split; [|split]].
  - intros s -> Hs. cbn. unfold Js.string_truthy.
    destruct (String.eqb_spec s ""); [contradiction|reflexivity].
  - now intros [-> | ->].
  - now intros ->.
  - now intros [-> | [-> | [-> | ->]]].
Qed.

End Facts.

(** ** The theorems at the sample inputs *)

(** A pointer-down on option [c] followed by the blur: the selection of
    [c] with value 3 is reported, then the listbox collapses. *)
Lemma pointer_down_selects_before_blur_sample :
  ac_children Sample.props !! 2%nat = Some (Sample.option_child "c" 3)
  /\ run Sample.toString (Some "development") Sample.props ":r0:"
       [MouseDown 2; Blur] Sample.expanded_on_a
     = {| st_expanded := false; activeId := Some "c";
          log := [Tracker (TUpdate "c"); HostOnOptionSelect 3%Z;
                  SetExpanded false; HostOnBlur] |}.
Proof.
  split; [reflexivity|].
  exact (proj1 (proj2 (proj2 (proj2
    (pointer_down_selects_before_blur Sample.toString (Some "development")
       Sample.props ":r0:" 2%nat (Sample.option_child "c" 3) (Some "a") []
       eq_refl))))).
Defined.

(** A mouse-down and a click on option [b]: two selections of [b]. *)
Lemma mouse_down_and_click_select_twice_sample :
  ac_children Sample.props !! 1%nat = Some (Sample.option_child "b" 2)
  /\ run Sample.toString (Some "development") Sample.props ":r0:"
       [MouseDown 1; Click 1] Sample.expanded_on_a
     = {| st_expanded := true; activeId := Some "b";
          log := [Tracker (TUpdate "b"); HostOnOptionSelect 2%Z;
                  Tracker (TUpdate "b"); HostOnOptionSelect 2%Z] |}.
Proof.
  split; [reflexivity|].
  exact (proj1 (proj2
    (mouse_down_and_click_select_twice Sample.toString (Some "development")
       Sample.props ":r0:" 1%nat (Sample.option_child "b" 2) (Some "a") []
       eq_refl))).
Defined.

(** In a development build the default context throws. *)
Lemma default_context_throws_sample :
  Some "development" <> Some "production"
  /\ checkIfActive (ActiveDescendantContext (Some "development")) "a"
       (@initial Z)
     = Threw no_provider_message initial.
Proof.
  split; [discriminate|].
  exact (proj1 (proj1
    (default_context_throws_or_degrades Sample.toString (Some "development")
       "a" 3%Z (child_props (Sample.option_child "a" 1)) ":r1:" initial)
    ltac:(discriminate))).
Defined.

(** An option with the id [opt-a] and the content [Apple] renders with
    both; one without an id and without content renders with the generated
    id and shows its value. *)
Lemma option_id_and_content_sample :
  (li_id <$> result_of
     (AutocompleteOption Sample.toString (Some "development")
        (Some (activeDescendantState Sample.props (tracker None None)))
        {| opt_id := Some "opt-a"; opt_value := 1%Z;
           opt_children := RString "Apple"; opt_className := None |}
        ":r5:" initial)
   = Some "opt-a"
   /\ li_content <$> result_of
     (AutocompleteOption Sample.toString (Some "development")
        (Some (activeDescendantState Sample.props (tracker None None)))
        {| opt_id := Some "opt-a"; opt_value := 1%Z;
           opt_children := RString "Apple"; opt_className := None |}
        ":r5:" initial)
   = Some (RString "Apple"))
  /\ (li_id <$> result_of
     (AutocompleteOption Sample.toString (Some "development")
        (Some (activeDescendantState Sample.props (tracker None None)))
        {| opt_id := None; opt_value := 2%Z;
           opt_children := RUndefined; opt_className := None |}
        ":r6:" initial)
   = Some ":r6:"
   /\ li_content <$> result_of
     (AutocompleteOption Sample.toString (Some "development")
        (Some (activeDescendantState Sample.props (tracker None None)))
        {| opt_id := None; opt_value := 2%Z;
           opt_children := RUndefined; opt_className := None |}
        ":r6:" initial)
   = Some (RString "2")).
Proof.
  split.
  - pose proof
      (option_id_and_content Sample.toString (Some "development") Sample.props
         (tracker None None)
         {| opt_id := Some "opt-a"; opt_value := 1%Z;
            opt_children := RString "Apple"; opt_className := None |}
         ":r5:" initial) as (_ & Hid & _ & Htruthy & _).
    split; [apply (Hid "opt-a"); [reflexivity|discriminate]|].
    apply Htruthy. reflexivity.
  - pose proof
      (option_id_and_content Sample.toString (Some "development") Sample.props
         (tracker None None)
         {| opt_id := None; opt_value := 2%Z;
            opt_children := RUndefined; opt_className := None |}
         ":r6:" initial) as (_ & _ & Hnone & _ & Hfalsy).
    split; [apply Hnone; left; reflexivity|].
    apply Hfalsy. left. reflexivity.
Defined.

(** The keyboard scenario of the spec: focus expands, two ArrowDown reach
    [b], Enter reports the value 2, Escape collapses and clears. *)
Example keyboard_scenario :
  run Sample.toString (Some "development") Sample.props ":r0:"
    [Focus; Sample.keydown "ArrowDown"; Sample.keydown "ArrowDown";
     Sample.keydown "Enter"; Sample.keydown "Escape"] initial
  = {| st_expanded := false; activeId := None;
       log :=
         [SetExpanded true; HostOnFocus;
          PreventDefault {| key := "ArrowDown"; altKey := false |};
          Tracker TNext;
          HostOnKeyDown {| key := "ArrowDown"; altKey := false |};
          PreventDefault {| key := "ArrowDown"; altKey := false |};
          Tracker TNext;
          HostOnKeyDown {| key := "ArrowDown"; altKey := false |};
          Tracker TClick; Tracker (TUpdate "b"); HostOnOptionSelect 2%Z;
          HostOnKeyDown {| key := "Enter"; altKey := false |};
          SetExpanded false; Tracker TClear;
          HostOnKeyDown {| key := "Escape"; altKey := false |}] |}.
Proof. vm_compute. reflexivity. Qed.

(** With auto-expand disabled focus does not expand; Alt+Enter does. *)
Example alt_enter_scenario :
  let props := {|
    ac_id := None; ac_children := ac_children Sample.props; classes := None;
    label := None; autoExpand := Some false; listboxPosition := None;
    ac_value := None; onBlur := false; onFocus := false; onKeyDown := false;
    props_onOptionSelect := true; remainingProps := ∅ |} in
  st_expanded
    (run Sample.toString (Some "development") props ":r0:" [Focus] initial)
  = false
  /\ st_expanded
       (run Sample.toString (Some "development") props ":r0:"
          [Focus; KeyDown {| key := "Enter"; altKey := true |}] initial)
     = true.
Proof. split; vm_compute; reflexivity. Qed.

(** ** Where the spec's wording and the code part *)

(** Against C1 as stated: with option [a] active, the blur collapses the
    listbox and [a] is still the active id, the log showing no [clear()];
    and a pointer-down on [b] followed by the blur leaves the listbox
    collapsed with [b] active. *)
Lemma blur_and_selection_leave_an_active_id :
  step Sample.toString (Some "development") Sample.props ":r0:"
    Sample.expanded_on_a Blur
  = {| st_expanded := false; activeId := Some "a";
       log := [SetExpanded false; HostOnBlur] |}
  /\ run Sample.toString (Some "development") Sample.props ":r0:"
       [MouseDown 1; Blur] Sample.expanded_on_a
     = {| st_expanded := false; activeId := Some "b";
          log := [Tracker (TUpdate "b"); HostOnOptionSelect 2%Z;
                  SetExpanded false; HostOnBlur] |}
  /\ activeId
       (step Sample.toString (Some "development") Sample.props ":r0:"
          Sample.expanded_on_a Blur) <> None
  /\ ~ In (Tracker TClear)
       (log (step Sample.toString (Some "development") Sample.props ":r0:"
               Sample.expanded_on_a Blur)).
Proof.
  split; [vm_compute; reflexivity|].
  split; [vm_compute; reflexivity|].
  split; [vm_compute; discriminate|].
  vm_compute. intros [H|[H|[]]]; discriminate.
Qed.

(** Against C9 as stated: the empty string supplied as the id is not the
    id the option renders with, and the explicit content 0 is not what it
    shows. *)
Lemma falsy_id_and_content_fall_back :
  li_id <$> result_of
    (AutocompleteOption Sample.toString (Some "development")
       (Some (activeDescendantState Sample.props (tracker None None)))
       {| opt_id := Some ""; opt_value := 3%Z;
          opt_children := RNumber (Js.Num 0); opt_className := None |}
       ":r5:" initial)
  = Some ":r5:"
  /\ li_content <$> result_of
    (AutocompleteOption Sample.toString (Some "development")
       (Some (activeDescendantState Sample.props (tracker None None)))
       {| opt_id := Some ""; opt_value := 3%Z;
          opt_children := RNumber (Js.Num 0); opt_className := None |}
       ":r5:" initial)
  = Some (RString "3").
Proof. split; reflexivity. Qed.

(** ** The rest of the component *)

Section Component.

Context {V : Type}.
Variable toString : V -> string.

Implicit Types (w : @World V) (props : @AutocompleteProps V).
Implicit Types (env : option string) (e : KeyboardEvent).

(** *** Worlds after a step *)

Lemma step_focus env props autoId w :
  step toString env props autoId w Focus
  = {| st_expanded := default true (autoExpand props); activeId := activeId w;
       log := log w ++ SetExpanded (default true (autoExpand props))
              :: host_calls (onFocus props) HostOnFocus |}.
Proof.
  unfold step. rewrite dispatch_focus. unfold onFocusHandler.
  erewrite bind_returned; [|reflexivity].
  rewrite optional_call_world. cbn. now rewrite <- app_assoc.
Qed.

(** The key handler on the expanded widget: it returns, the state is
    collapsed only by Escape, and the log gains [expanded_key_calls]. *)
Lemma track_expanded env props autoId cur l e :
  let w := {| st_expanded := true; activeId := cur; log := l |} in
  exists w',
    trackActiveDescendant true (live_tracker toString props autoId w) e w
    = Returned tt w'
    /\ st_expanded w' = negb (String.eqb (key e) KeyCode.ESC)
    /\ log w' = l ++ expanded_key_calls props cur e.
Proof.
  intros w. subst w. destruct e as [k a].
  unfold trackActiveDescendant, expanded_key_calls. cbn [key altKey].
  destruct (String.eqb_spec k KeyCode.DOWN) as [->|Hdown].
  { eexists. split; [reflexivity|]. split; [reflexivity|].
    cbn. now rewrite <- app_assoc. }
  destruct (String.eqb_spec k KeyCode.UP) as [->|Hup].
  { eexists. split; [reflexivity|]. split; [reflexivity|].
    cbn. now rewrite <- app_assoc. }
  destruct (String.eqb_spec k KeyCode.ESC) as [->|Hesc].
  { eexists. split; [reflexivity|]. split; [reflexivity|].
    cbn. now rewrite <- app_assoc. }
  destruct (String.eqb_spec k KeyCode.ENTER) as [->|Henter].
  - rewrite (click_world toString props autoId cur l).
    eexists. split; [reflexivity|]. now split.
  - eexists. split; [reflexivity|]. split; [reflexivity|].
    cbn. now rewrite app_nil_r.
Qed.

Lemma step_keydown_expanded env props autoId cur l e :
  let w := {| st_expanded := true; activeId := cur; log := l |} in
  st_expanded (step toString env props autoId w (KeyDown e))
  = negb (String.eqb (key e) KeyCode.ESC)
  /\ log (step toString env props autoId w (KeyDown e))
     = l ++ expanded_key_calls props cur e
         ++ host_calls (onKeyDown props) (HostOnKeyDown e).
Proof.
  intros w. unfold step. rewrite dispatch_keydown. unfold onKeyDownHandler.
  destruct (track_expanded env props autoId cur l e) as (w' & Hw' & Hx & Hl).
  erewrite bind_returned; [|exact Hw'].
  rewrite optional_call_world. cbn. rewrite Hl, Hx.
  now rewrite <- app_assoc.
Qed.

Lemma step_collapsed env props autoId cur l (ev : Event) :
  step toString env props autoId
    {| st_expanded := false; activeId := cur; log := l |} ev
  = {| st_expanded :=
         spec_machine (default true (autoExpand props)) false ev;
       activeId := cur;
       log := l ++ collapsed_calls props ev |}.
Proof.
  destruct ev as [| |e|i|i|i]; cbn [spec_machine collapsed_calls].
  - apply step_focus.
  - apply step_blur.
  - unfold step. rewrite dispatch_keydown. unfold onKeyDownHandler.
    unfold trackActiveDescendant. cbn [st_expanded].
    change KeyCode.ENTER with "Enter".
    destruct (String.eqb (key e) "Enter" && altKey e).
    + erewrite bind_returned; [|reflexivity].
      rewrite optional_call_world. cbn. now rewrite <- app_assoc.
    + erewrite bind_returned; [|reflexivity].
      now rewrite optional_call_world.
  - rewrite (step_option_event _ _ _ _ _ i) by now left.
    cbn. now rewrite app_nil_r.
  - rewrite step_mouseup. now rewrite app_nil_r.
  - rewrite (step_option_event _ _ _ _ _ i) by now right.
    cbn. now rewrite app_nil_r.
Qed.

(** *** The rendered tree *)

(** The whole tree the component returns. *)
Lemma component_tree env props autoId dom w :
  AutocompleteComponent toString env props autoId dom w
  = Returned
      {| div_className := class_of (classes props) cls_container;
         div_label :=
           Js.and_string (label props)
             {| label_htmlFor := comboboxId_of props autoId;
                label_className := class_of (classes props) cls_label;
                label_text := default "" (label props) |};
         div_input :=
           set_props (remainingProps props)
             (written_props props autoId (st_expanded w)
                (tracker dom (activeId w)));
         portal_className := class_of (classes props) cls_portal;
         portal_listbox :=
           rendered_listbox toString props autoId (st_expanded w)
             (tracker dom (activeId w)) |}
      w.
Proof.
  unfold AutocompleteComponent.
  erewrite bind_returned; [|reflexivity].
  erewrite bind_returned; [|reflexivity].
  destruct (st_expanded w) eqn:E.
  - erewrite bind_returned;
      [|erewrite bind_returned; [reflexivity|apply options_below_provider]].
    reflexivity.
  - now erewrite bind_returned; [|reflexivity].
Qed.

Lemma written_props_names props autoId expanded (ad : @ActiveDescendant V) :
  map fst (written_props props autoId expanded ad) = explicit_props.
Proof. reflexivity. Qed.


(** A key that was written holds what was written, whatever was spread. *)
Lemma lookup_set_props_written (m m' : gmap string (@PropVal V)) kvs k :
  In k (map fst kvs) -> set_props m kvs !! k = set_props m' kvs !! k.
Proof.
  intros Hk. rewrite !lookup_set_props.
  destruct (find _ (rev kvs)) as [kv|] eqn:Hfind; [reflexivity|].
  exfalso. apply in_map_iff in Hk as (kv & <- & Hin).
  apply in_rev in Hin.
  pose proof (find_none _ _ Hfind kv Hin) as Hne. cbn in Hne.
  now rewrite String.eqb_refl in Hne.
Qed.

(** The suffix keeps the listbox id apart from the id of the input. *)
Lemma append_suffix_differs (s t : string) : t <> "" -> s +:+ t <> s.
Proof.
  intros Ht. induction s as [|a s IH]; cbn; [exact Ht|].
  intros [= H]. now apply IH.
Qed.

(** *** The props of the input *)


(** X2: what the component writes on the [<input>] wins over a forwarded
    prop of the same name: none of these props depends on the forwarded
    ones.  In particular the class is the [input] slot of [classes] and
    nothing else, [autoComplete] is off, and [id] and [value] are the
    component's. *)
Theorem written_props_win :
  forall env props autoId dom w,
  exists r,
    AutocompleteComponent toString env props autoId dom w = Returned r w
    /\ (forall k, In k explicit_props ->
          div_input r !! k
          = set_props ∅
              (written_props props autoId (st_expanded w)
                 (tracker dom (activeId w))) !! k)
    /\ attr (div_input r) "className"
       = PStr <$> class_of (classes props) cls_input
    /\ attr (div_input r) "autoComplete" = Some (PStr "off")
    /\ attr (div_input r) "id" = Some (PStr (comboboxId_of props autoId))
    /\ attr (div_input r) "value" = PStr <$> ac_value props.
Proof.
  intros env props autoId dom w. eexists. split; [apply component_tree|].
  cbn [div_input]. split.
  - intros k Hk. apply lookup_set_props_written.
    now rewrite written_props_names.
  - unfold attr. rewrite !lookup_set_props. cbn.
    split; [now destruct (class_of (classes props) cls_input)|].
    do 2 (split; [reflexivity|]).
    now destruct (ac_value props).
Qed.

(** X3: the label is rendered exactly when the [label] prop is a non-empty
    string; it then shows that string and points at the id of the
    [<input>].  The listbox is labelled by the same id, and its own id is
    never the id of the [<input>]. *)
Theorem label_and_listbox_name_the_input :
  forall env props autoId dom w,
  exists r,
    AutocompleteComponent toString env props autoId dom w = Returned r w
    /\ attr (div_input r) "id" = Some (PStr (comboboxId_of props autoId))
    /\ div_label r
       = match label props with
         | Some text =>
             if String.eqb text "" then None
             else Some {| label_htmlFor := comboboxId_of props autoId;
                          label_className := class_of (classes props) cls_label;
                          label_text := text |}
         | None => None
         end
    /\ ul_ariaLabelledby <$> portal_listbox r
       = (if st_expanded w then Some (comboboxId_of props autoId) else None)
    /\ listboxId_of props autoId <> comboboxId_of props autoId.
Proof.
  intros env props autoId dom w. eexists. split; [apply component_tree|].
  cbn [div_input div_label portal_listbox]. split; [|split; [|split]].
  - unfold attr. now rewrite lookup_set_props.
  - destruct (label props) as [text|]; [|reflexivity].
    cbn. unfold Js.string_truthy. now destruct (String.eqb text "").
  - unfold rendered_listbox. now destruct (st_expanded w).
  - now apply append_suffix_differs.
Qed.

(** X4: below the container's provider the default value of the context is
    never used, so the build mode changes neither what the component
    renders nor what an event does. *)
Theorem build_mode_does_not_matter :
  forall env1 env2 props autoId dom w (ev : Event),
    AutocompleteComponent toString env1 props autoId dom w
    = AutocompleteComponent toString env2 props autoId dom w
    /\ dispatch toString env1 props autoId ev w
       = dispatch toString env2 props autoId ev w.
Proof.
  intros env1 env2 props autoId dom w ev. split.
  - now rewrite !component_tree.
  - destruct ev as [| |e|i|i|i].
    + now rewrite !dispatch_focus.
    + now rewrite !dispatch_blur.
    + now rewrite !dispatch_keydown.
    + now rewrite !dispatch_mousedown.
    + now rewrite !dispatch_mouseup.
    + now rewrite !dispatch_click.
Qed.

(** *** The handlers *)

Lemma host_calls_in (supplied : bool) (call eff : @Effect V) :
  In eff (host_calls supplied call) -> eff = call.
Proof. destruct supplied; cbn; [|tauto]. now intros [<-|[]]. Qed.

Lemma selection_calls_in props (c : @OptionChild V) eff :
  In eff (selection_calls props c) -> touches_selection eff = true.
Proof.
  unfold selection_calls. intros [<-|Hin]; [reflexivity|].
  now rewrite (host_calls_in _ _ _ Hin).
Qed.

Lemma click_calls_in props cur (eff : @Effect V) :
  In eff (click_calls props cur) -> touches_selection eff = true.
Proof.
  unfold click_calls.
  destruct (cur ≫= child_with_id (ac_children props)); [|intros []].
  apply selection_calls_in.
Qed.

Lemma collapsed_calls_spare_the_selection props (ev : Event) :
  Forall (fun eff : @Effect V => touches_selection eff = false)
    (collapsed_calls props ev).
Proof.
  destruct ev as [| |k|i|i|i]; cbn [collapsed_calls].
  - constructor; [reflexivity|]. now destruct (onFocus props); repeat constructor.
  - constructor; [reflexivity|]. now destruct (onBlur props); repeat constructor.
  - apply Forall_app. split.
    + now destruct (_ && _); repeat constructor.
    + now destruct (onKeyDown props); repeat constructor.
  - constructor.
  - constructor.
  - constructor.
Qed.

Lemma collapsed_calls_prevent_nothing props (ev : Event) e' :
  ~ In (@PreventDefault V e') (collapsed_calls props ev).
Proof.
  intros Hin. destruct ev as [| |k|i|i|i]; cbn [collapsed_calls] in Hin.
  - destruct Hin as [Hin|Hin]; [discriminate|].
    now apply host_calls_in in Hin.
  - destruct Hin as [Hin|Hin]; [discriminate|].
    now apply host_calls_in in Hin.
  - apply in_app_or in Hin as [Hin|Hin].
    + destruct (_ && _); [|destruct Hin].
      now destruct Hin as [Hin|[]].
    + now apply host_calls_in in Hin.
  - destruct Hin.
  - destruct Hin.
  - destruct Hin.
Qed.

(** The key handler prevents the default of the very event it was given,
    and only for the two arrows. *)
Lemma prevent_in_key_calls props cur e e' :
  In (@PreventDefault V e') (expanded_key_calls props cur e)
  <-> e' = e /\ (key e = "ArrowDown" \/ key e = "ArrowUp").
Proof.
  unfold expanded_key_calls.
  change KeyCode.DOWN with "ArrowDown". change KeyCode.UP with "ArrowUp".
  change KeyCode.ESC with "Escape". change KeyCode.ENTER with "Enter".
  destruct (String.eqb_spec (key e) "ArrowDown") as [Hk|Hdown].
  { cbn. split; [intros [[= ->]|[[=]|[]]]; auto|intros [-> _]; auto]. }
  destruct (String.eqb_spec (key e) "ArrowUp") as [Hk|Hup].
  { cbn. split; [intros [[= ->]|[[=]|[]]]; auto|intros [-> _]; auto]. }
  split; [|intros [_ [?|?]]; contradiction].
  destruct (String.eqb_spec (key e) "Escape") as [Hk|Hesc].
  { intros [[=]|[[=]|[]]]. }
  destruct (String.eqb_spec (key e) "Enter") as [Hk|Henter]; [|intros []].
  intros [[=]|Hin]. now apply click_calls_in in Hin.
Qed.

Lemma key_calls_spare_the_host_key props cur e e' :
  ~ In (@HostOnKeyDown V e') (expanded_key_calls props cur e).
Proof.
  unfold expanded_key_calls.
  destruct (String.eqb (key e) KeyCode.DOWN); [intros [[=]|[[=]|[]]]|].
  destruct (String.eqb (key e) KeyCode.UP); [intros [[=]|[[=]|[]]]|].
  destruct (String.eqb (key e) KeyCode.ESC); [intros [[=]|[[=]|[]]]|].
  destruct (String.eqb (key e) KeyCode.ENTER); [|intros []].
  intros [[=]|Hin]. now apply click_calls_in in Hin.
Qed.

(** X5: the focus and the blur handler change the expand state and then
    call the host's [onFocus] or [onBlur], once when it was supplied; in
    every state they leave the active id alone and call nothing else, so a
    focus followed by a blur ends collapsed with the active id it began
    with. *)
Theorem focus_and_blur_set_the_state_then_call_the_host :
  forall env props autoId w,
    step toString env props autoId w Focus
    = {| st_expanded := default true (autoExpand props);
         activeId := activeId w;
         log := log w ++ SetExpanded (default true (autoExpand props))
                :: host_calls (onFocus props) HostOnFocus |}
    /\ step toString env props autoId w Blur
       = {| st_expanded := false; activeId := activeId w;
            log := log w ++ SetExpanded false
                   :: host_calls (onBlur props) HostOnBlur |}
    /\ run toString env props autoId [Focus; Blur] w
       = {| st_expanded := false; activeId := activeId w;
            log := log w
                   ++ (SetExpanded (default true (autoExpand props))
                       :: host_calls (onFocus props) HostOnFocus)
                   ++ SetExpanded false
                      :: host_calls (onBlur props) HostOnBlur |}.
Proof.
  intros env props autoId w.
  split; [apply step_focus|]. split; [apply step_blur|].
  cbn [run fold_left]. rewrite step_focus, step_blur. cbn.
  now rewrite <- app_assoc.
Qed.

(** X6: while the widget is collapsed no event reaches the tracker or an
    option: the active id stays, nothing is selected, no default is
    prevented, and pointer events on options do nothing at all.  The key
    handler does not look at the tracker object then. *)
Theorem collapsed_widget_leaves_the_tracker_alone :
  forall env props autoId cur l (ev : Event) (ad1 ad2 : @ActiveDescendant V) e,
    let closed := {| st_expanded := false; activeId := cur; log := l |} in
    step toString env props autoId closed ev
    = {| st_expanded := spec_machine (default true (autoExpand props)) false ev;
         activeId := cur;
         log := l ++ collapsed_calls props ev |}
    /\ Forall (fun eff => touches_selection eff = false)
         (collapsed_calls props ev)
    /\ (forall e', ~ In (PreventDefault e') (collapsed_calls props ev))
    /\ (forall i, step toString env props autoId closed (MouseDown i) = closed
                  /\ step toString env props autoId closed (Click i) = closed)
    /\ trackActiveDescendant false ad1 e = trackActiveDescendant false ad2 e.
Proof.
  intros env props autoId cur l ev ad1 ad2 e closed. subst closed.
  split; [apply step_collapsed|].
  split; [apply collapsed_calls_spare_the_selection|].
  split; [apply collapsed_calls_prevent_nothing|].
  split; [|reflexivity].
  intros i. rewrite !step_collapsed. cbn. now rewrite app_nil_r.
Qed.

(** X7: while expanded, a key other than ArrowDown, ArrowUp, Escape and
    Enter is left to the input: the key handler does nothing for it with
    any tracker object, and on the mounted widget only the host's
    [onKeyDown] is called. *)
Theorem other_keys_are_left_to_the_input :
  forall env props autoId (ad : @ActiveDescendant V) e cur l,
    key e <> "ArrowDown" -> key e <> "ArrowUp" ->
    key e <> "Escape" -> key e <> "Enter" ->
    trackActiveDescendant true ad e = mret tt
    /\ step toString env props autoId
         {| st_expanded := true; activeId := cur; log := l |} (KeyDown e)
       = {| st_expanded := true; activeId := cur;
            log := l ++ host_calls (onKeyDown props) (HostOnKeyDown e) |}.
Proof.
  intros env props autoId ad e cur l Hdown Hup Hesc Henter.
  assert (forall ad' : @ActiveDescendant V,
            trackActiveDescendant true ad' e = mret tt) as Htrack.
  { intros ad'. unfold trackActiveDescendant.
    change KeyCode.DOWN with "ArrowDown". change KeyCode.UP with "ArrowUp".
    change KeyCode.ESC with "Escape". change KeyCode.ENTER with "Enter".
    destruct (String.eqb_spec (key e) "ArrowDown"); [contradiction|].
    destruct (String.eqb_spec (key e) "ArrowUp"); [contradiction|].
    destruct (String.eqb_spec (key e) "Escape"); [contradiction|].
    now destruct (String.eqb_spec (key e) "Enter"). }
  split; [apply Htrack|].
  unfold step. rewrite dispatch_keydown. unfold onKeyDownHandler.
  cbn [st_expanded]. rewrite Htrack.
  erewrite bind_returned; [|reflexivity].
  now rewrite optional_call_world.
Qed.

(** X8: a step prevents the default of an event exactly when the widget is
    expanded and the event is an ArrowDown or ArrowUp keystroke, and then
    of that very event; no other key, no pointer event, no focus change
    and nothing that happens while collapsed prevents a default. *)
Theorem default_is_prevented_only_for_arrows_while_expanded :
  forall env props autoId w (ev : Event) e',
    In (PreventDefault e') (log (step toString env props autoId w ev))
    <-> In (PreventDefault e') (log w)
        \/ (ev = KeyDown e' /\ st_expanded w = true
            /\ (key e' = "ArrowDown" \/ key e' = "ArrowUp")).
Proof.
  intros env props autoId [x cur l] ev e'. cbn [log st_expanded].
  destruct x.
  - destruct ev as [| |e|i|i|i].
    + rewrite step_focus. cbn [log activeId]. rewrite in_app_iff.
      split; [intros [H|[[=]|H]]; auto; now apply host_calls_in in H|].
      intros [H|[[=] _]]. now left.
    + rewrite step_blur. cbn [log activeId]. rewrite in_app_iff.
      split; [intros [H|[[=]|H]]; auto; now apply host_calls_in in H|].
      intros [H|[[=] _]]. now left.
    + rewrite (proj2 (step_keydown_expanded env props autoId cur l e)).
      rewrite !in_app_iff, prevent_in_key_calls. split.
      * intros [H|[[-> H]|H]]; auto. now apply host_calls_in in H.
      * intros [H|([= ->] & _ & H)]; auto.
    + rewrite (step_option_event _ _ _ _ _ i) by now left.
      destruct (target _ _ i); cbn [log]; rewrite ?in_app_iff.
      * split; [intros [H|H]; auto; now apply selection_calls_in in H|].
        intros [H|[[=] _]]. now left.
      * split; [auto|]. now intros [H|[[=] _]].
    + rewrite step_mouseup. cbn [log]. split; [auto|]. now intros [H|[[=] _]].
    + rewrite (step_option_event _ _ _ _ _ i) by now right.
      destruct (target _ _ i); cbn [log]; rewrite ?in_app_iff.
      * split; [intros [H|H]; auto; now apply selection_calls_in in H|].
        intros [H|[[=] _]]. now left.
      * split; [auto|]. now intros [H|[[=] _]].
  - rewrite step_collapsed. cbn [log]. rewrite in_app_iff. split.
    + intros [H|H]; auto. now apply collapsed_calls_prevent_nothing in H.
    + intros [H|(_ & [=] & _)]. now left.
Qed.

(** X9: in every state and for every key the host's [onKeyDown] is called
    after the widget has handled the keystroke, with the same event, once
    when it was supplied and not at all otherwise. *)
Theorem host_key_callback_comes_last :
  forall env props autoId w e,
  exists handled,
    log (step toString env props autoId w (KeyDown e))
    = log w ++ handled ++ host_calls (onKeyDown props) (HostOnKeyDown e)
    /\ forall e', ~ In (HostOnKeyDown e') handled.
Proof.
  intros env props autoId [x cur l] e. cbn [log]. destruct x.
  - exists (expanded_key_calls props cur e). split.
    + apply (step_keydown_expanded env props autoId cur l e).
    + intros e'. apply key_calls_spare_the_host_key.
  - rewrite step_collapsed. cbn [log collapsed_calls].
    eexists. split; [reflexivity|].
    intros e'. destruct (_ && _); [intros [[=]|[]]|intros []].
Qed.

(** X10: with auto-expand disabled, the listbox stays closed through any
    sequence of events that has no Alt+Enter in it: the widget ends
    collapsed with the active id it began with, and all that happened are
    the host's focus, blur and key callbacks and collapses. *)
Theorem closed_until_alt_enter :
  forall env props autoId (evs : list Event) cur l,
    autoExpand props = Some false ->
    Forall (fun ev => is_alt_enter ev = false) evs ->
    exists calls,
      run toString env props autoId evs
        {| st_expanded := false; activeId := cur; log := l |}
      = {| st_expanded := false; activeId := cur; log := l ++ calls |}
      /\ Forall (fun eff => quiet eff = true) calls.
Proof.
  intros env props autoId evs cur l Hauto.
  revert l. induction evs as [|ev evs IH]; intros l Hevs.
  - exists []. split; [now rewrite app_nil_r|constructor].
  - apply Forall_cons_iff in Hevs as [Hev Hevs].
    cbn [run fold_left]. rewrite step_collapsed, Hauto.
    assert (spec_machine (default true (Some false)) false ev = false) as ->.
    { destruct ev as [| |e|i|i|i]; try reflexivity. exact Hev. }
    destruct (IH (l ++ collapsed_calls props ev) Hevs) as (calls & Hrun & Hq).
    exists (collapsed_calls props ev ++ calls). split.
    + unfold run in Hrun. rewrite Hrun. now rewrite <- app_assoc.
    + apply Forall_app. split; [|exact Hq].
      destruct ev as [| |e|i|i|i]; cbn [collapsed_calls]; rewrite ?Hauto.
      * constructor; [reflexivity|].
        now destruct (onFocus props); repeat constructor.
      * constructor; [reflexivity|].
        now destruct (onBlur props); repeat constructor.
      * cbn in Hev. rewrite Hev. cbn.
        now destruct (onKeyDown props); repeat constructor.
      * constructor.
      * constructor.
      * constructor.
Qed.

(** *** Ids *)

Lemma append_length (s t : string) :
  String.length (s +:+ t) = String.length s + String.length t.
Proof. induction s as [|a s IH]; simpl; [reflexivity|]. now f_equal. Qed.

(** A common suffix can be dropped. *)
Lemma append_cancel_suffix (s1 s2 t : string) :
  s1 +:+ t = s2 +:+ t -> s1 = s2.
Proof.
  revert s2. induction s1 as [|a s1 IH]; intros [|b s2] H.
  - reflexivity.
  - apply (f_equal String.length) in H.
    rewrite !append_length in H. simpl in H. lia.
  - apply (f_equal String.length) in H.
    rewrite !append_length in H. simpl in H. lia.
  - change (String a (s1 +:+ t) = String b (s2 +:+ t)) in H.
    injection H as -> H. f_equal. now apply IH.
Qed.

(** X11: the id of the listbox is the id of the input followed by
    [-listbox], so two widgets have the same listbox id only when their
    inputs have the same id; the id of the input is the [id] prop when
    that is a non-empty string and the generated id otherwise. *)
Theorem listbox_ids_follow_input_ids :
  forall props1 props2 (autoId1 autoId2 : string),
    (listboxId_of props1 autoId1 = listboxId_of props2 autoId2
     <-> comboboxId_of props1 autoId1 = comboboxId_of props2 autoId2)
    /\ (forall env dom w,
          (fun r => attr (div_input r) "id")
            <$> result_of
                  (AutocompleteComponent toString env props1 autoId1 dom w)
          = Some (Some (PStr (match ac_id props1 with
                              | Some s => if String.eqb s "" then autoId1 else s
                              | None => autoId1
                              end)))).
Proof.
  intros props1 props2 autoId1 autoId2. split.
  - unfold listboxId_of. split; [apply append_cancel_suffix|now intros ->].
  - intros env dom w. rewrite component_tree.
    cbn [result_of fmap option_fmap option_map div_input]. unfold attr.
    rewrite lookup_set_props. cbn. unfold comboboxId_of, Js.or_string.
    destruct (ac_id props1) as [s|]; [|reflexivity].
    unfold Js.string_truthy. now destruct (String.eqb s "").
Qed.

End Component.

(** ** The rest of the component at the sample inputs *)


(** The letter [a] typed into the expanded widget. *)
Lemma other_keys_are_left_to_the_input_sample :
  step Sample.toString None Sample.props ":r0:" Sample.expanded_on_a
    (Sample.keydown "a")
  = {| st_expanded := true; activeId := Some "a";
       log := [HostOnKeyDown {| key := "a"; altKey := false |}] |}.
Proof.
  exact (proj2
    (other_keys_are_left_to_the_input Sample.toString None Sample.props ":r0:"
       (tracker None None) {| key := "a"; altKey := false |} (Some "a") []
       ltac:(discriminate) ltac:(discriminate) ltac:(discriminate)
       ltac:(discriminate))).
Defined.

(** Focus, ArrowDown, Enter, a pointer-down and a blur on the widget whose
    host disabled auto-expand. *)
Lemma closed_until_alt_enter_sample :
  autoExpand Manual.props = Some false
  /\ Forall (fun ev => is_alt_enter ev = false)
       [Focus; Sample.keydown "ArrowDown"; Sample.keydown "Enter";
        MouseDown 0; Blur]
  /\ exists calls,
       run Sample.toString None Manual.props ":r0:"
         [Focus; Sample.keydown "ArrowDown"; Sample.keydown "Enter";
          MouseDown 0; Blur]
         {| st_expanded := false; activeId := None; log := [] |}
       = {| st_expanded := false; activeId := None; log := [] ++ calls |}
       /\ Forall (fun eff => quiet eff = true) calls.
Proof.
  assert (Forall (fun ev => is_alt_enter ev = false)
            [Focus; Sample.keydown "ArrowDown"; Sample.keydown "Enter";
             MouseDown 0; Blur]) as Hevs
    by (repeat constructor).
  split; [reflexivity|]. split; [exact Hevs|].
  exact (closed_until_alt_enter Sample.toString None Manual.props ":r0:"
           _ None [] eq_refl Hevs).
Defined.
